(** * WebXRLightEstimation: attach / frame / dispose lifecycle

    A shallow embedding of the WebXR light-estimation feature
    (class [WebXRLightEstimation]) together with the part of the host
    (XR session, light probes, frames, WebGL binding) that the class talks
    to.  Methods are computations in a small state-and-exception monad over
    the pair (instance fields, host); every call the class makes on a host
    object is recorded in the host's call log, which plays the role of a
    collaborator spy. *)

From Stdlib Require Import List String Bool Arith.
Import ListNotations.
Open Scope string_scope.
Open Scope list_scope.

(** ** Host-side types *)

(** [XRReflectionFormat]: the string passed as [reflectionFormat]. *)
Definition XRReflectionFormat := string.

(** Host objects are opaque to the class; they are told apart by identity. *)
Definition XRLightProbe := nat.
Definition XRLightEstimate := nat.
Definition WebGLTexture := nat.

Inductive GLContext := WebGL2RenderingContext | WebGLRenderingContext.

(** A canvas answers [getContext(kind)] with a context or with [null]. *)
Record HTMLCanvasElement := mkCanvas {
  canvas_webgl2 : option GLContext;
  canvas_webgl : option GLContext
}.

Record XRWebGLBinding := mkBinding { binding_context : GLContext }.

(** An [XRFrame] answers [getLightEstimate(probe)]; the answer is nullable. *)
Record XRFrame := mkFrame {
  getLightEstimate : XRLightProbe -> option XRLightEstimate
}.

(** Calls made on host objects, in program order. *)
Inductive HostCall :=
| ToolsWarn (msg : string)
| RequestLightProbe (reflectionFormat : XRReflectionFormat)
| GetRenderingCanvas
| GetContext (kind : string)
| NewXRWebGLBinding (ctx : GLContext)
| GetReflectionCubeMap (probe : XRLightProbe)
| AddEventListener (probe : XRLightProbe)
| RemoveEventListener (probe : XRLightProbe)
| GetLightEstimate (probe : XRLightProbe).

Record Host := mkHost {
  (* session.preferredReflectionFormat; [None] when the session reports none *)
  preferredReflectionFormat : option XRReflectionFormat;
  (* scene.getEngine().getRenderingCanvas() *)
  renderingCanvas : option HTMLCanvasElement;
  (* light-probe promises of this instance not settled yet, oldest first *)
  pendingProbes : list XRReflectionFormat;
  (* probes on which [_updateReflectionCubeMap] listens for 'reflectionchange' *)
  listeners : list XRLightProbe;
  (* cube-map textures allocated so far *)
  textures : nat;
  calls : list HostCall
}.

(** ** The instance *)

Record IWebXRLightEstimationOptions := mkOptions {
  (* optional property: [None] is [undefined] *)
  reflectionFormatSRGBA8 : option bool
}.

Record WebXRLightEstimation := mkFeature {
  attached : bool;
  options : IWebXRLightEstimationOptions;
  _xrLightProbe : option XRLightProbe;
  _xrLightEstimate : option XRLightEstimate;
  _xrWebGLBinding : option XRWebGLBinding;
  _reflectionCubeMap : option WebGLTexture
}.

Record Sys := mkSys { this : WebXRLightEstimation; host : Host }.

Definition set_attached (b : bool) (o : WebXRLightEstimation) :=
  mkFeature b (options o) (_xrLightProbe o) (_xrLightEstimate o)
            (_xrWebGLBinding o) (_reflectionCubeMap o).
Definition set_xrLightProbe (v : option XRLightProbe) (o : WebXRLightEstimation) :=
  mkFeature (attached o) (options o) v (_xrLightEstimate o)
            (_xrWebGLBinding o) (_reflectionCubeMap o).
Definition set_xrLightEstimate (v : option XRLightEstimate) (o : WebXRLightEstimation) :=
  mkFeature (attached o) (options o) (_xrLightProbe o) v
            (_xrWebGLBinding o) (_reflectionCubeMap o).
Definition set_xrWebGLBinding (v : option XRWebGLBinding) (o : WebXRLightEstimation) :=
  mkFeature (attached o) (options o) (_xrLightProbe o) (_xrLightEstimate o)
            v (_reflectionCubeMap o).
Definition set_reflectionCubeMap (v : option WebGLTexture) (o : WebXRLightEstimation) :=
  mkFeature (attached o) (options o) (_xrLightProbe o) (_xrLightEstimate o)
            (_xrWebGLBinding o) v.

Definition log (c : HostCall) (h : Host) :=
  mkHost (preferredReflectionFormat h) (renderingCanvas h) (pendingProbes h)
         (listeners h) (textures h) (calls h ++ [c]).
Definition set_pendingProbes (l : list XRReflectionFormat) (h : Host) :=
  mkHost (preferredReflectionFormat h) (renderingCanvas h) l
         (listeners h) (textures h) (calls h).
Definition set_listeners (l : list XRLightProbe) (h : Host) :=
  mkHost (preferredReflectionFormat h) (renderingCanvas h) (pendingProbes h)
         l (textures h) (calls h).
Definition set_textures (n : nat) (h : Host) :=
  mkHost (preferredReflectionFormat h) (renderingCanvas h) (pendingProbes h)
         (listeners h) n (calls h).

(** ** Computations: state plus exceptions *)

Inductive JsError := TypeError.

Inductive Completion (A : Type) :=
| Normal (v : A) (s : Sys)
| Throw (e : JsError) (s : Sys).
Arguments Normal {A} v s.
Arguments Throw {A} e s.

Definition Js (A : Type) := Sys -> Completion A.

Definition ret {A} (v : A) : Js A := fun s => Normal v s.
Definition throw {A} (e : JsError) : Js A := fun s => Throw e s.
Definition bind {A B} (m : Js A) (k : A -> Js B) : Js B :=
  fun s => match m s with
           | Normal v s' => k v s'
           | Throw e s' => Throw e s'
           end.

Declare Scope js_scope.
Delimit Scope js_scope with js.
Notation "x <- m ; k" := (bind m (fun x => k))
  (at level 61, m at next level, right associativity) : js_scope.
Notation "m ;; k" := (bind m (fun _ => k))
  (at level 61, right associativity) : js_scope.
Open Scope js_scope.

Definition read {A} (f : WebXRLightEstimation -> A) : Js A :=
  fun s => Normal (f (this s)) s.
Definition write (f : WebXRLightEstimation -> WebXRLightEstimation) : Js unit :=
  fun s => Normal tt (mkSys (f (this s)) (host s)).
Definition ask {A} (f : Host -> A) : Js A :=
  fun s => Normal (f (host s)) s.
Definition tell (f : Host -> Host) : Js unit :=
  fun s => Normal tt (mkSys (this s) (f (host s))).

(** JavaScript truthiness of the values that occur in conditions. *)
Definition truthy_bool (v : option bool) : bool :=
  match v with Some true => true | _ => false end.
Definition truthy_ref {A} (v : option A) : bool :=
  match v with Some _ => true | None => false end.
(** [a ?? b] *)
Definition nullish {A} (a : option A) (b : A) : A :=
  match a with Some v => v | None => b end.

(** ** Host operations *)

(** [session.requestLightProbe({reflectionFormat})]: returns a promise, which
    stays pending until the host settles it (see [Resolve] and [Reject]). *)
Definition requestLightProbe (fmt : XRReflectionFormat) : Js unit :=
  tell (fun h => log (RequestLightProbe fmt)
                     (set_pendingProbes (pendingProbes h ++ [fmt]) h)).

Definition getRenderingCanvas : Js (option HTMLCanvasElement) :=
  tell (log GetRenderingCanvas);; ask renderingCanvas.

Definition getContext (c : HTMLCanvasElement) (kind : string) : Js (option GLContext) :=
  tell (log (GetContext kind));;
  ret (if String.eqb kind "webgl2" then canvas_webgl2 c
       else if String.eqb kind "webgl" then canvas_webgl c
       else None).

Definition newXRWebGLBinding (ctx : GLContext) : Js XRWebGLBinding :=
  tell (log (NewXRWebGLBinding ctx));; ret (mkBinding ctx).

(** [binding.getReflectionCubeMap(probe)] hands out a new texture. *)
Definition getReflectionCubeMap (b : XRWebGLBinding) (p : XRLightProbe)
  : Js (option WebGLTexture) :=
  n <- ask textures;
  tell (fun h => log (GetReflectionCubeMap p) (set_textures (S n) h));;
  ret (Some n).

(** [probe.addEventListener('reflectionchange', this._updateReflectionCubeMap)]:
    a listener that is already registered is not registered again. *)
Definition addEventListener (p : XRLightProbe) : Js unit :=
  tell (fun h => log (AddEventListener p)
                     (if existsb (Nat.eqb p) (listeners h) then h
                      else set_listeners (p :: listeners h) h)).

(** [probe.removeEventListener('reflectionchange', this._updateReflectionCubeMap)]:
    removing a listener that is not registered does nothing. *)
Definition removeEventListener (p : XRLightProbe) : Js unit :=
  tell (fun h => log (RemoveEventListener p)
                     (set_listeners
                        (filter (fun q => negb (Nat.eqb p q)) (listeners h)) h)).

Definition frame_getLightEstimate (f : XRFrame) (p : XRLightProbe)
  : Js (option XRLightEstimate) :=
  tell (log (GetLightEstimate p));; ret (getLightEstimate f p).

(** ** Base class [WebXRAbstractFeature] *)

(** Modelled from the spec: [WebXRAbstractFeature.attach] is not among the
    sources.  The spec gives the base feature a state (attached | detached)
    and the precondition that the feature must not already be attached; a
    failed precondition is reported by returning [false]. *)
Definition super_attach : Js bool :=
  a <- read attached;
  if a then ret false
  else write (set_attached true);; ret true.

(** Modelled from the spec: [WebXRAbstractFeature.dispose] is not among the
    sources.  The spec describes it as the base feature's own teardown; it
    leaves the feature detached. *)
Definition super_dispose : Js unit :=
  write (set_attached false).

(** ** Class [WebXRLightEstimation] *)

(** The constructor: fields at their initialisers, one warning emitted. *)
Definition new (opts : IWebXRLightEstimationOptions) (h : Host) : Sys :=
  mkSys (mkFeature false opts None None None None)
        (log (ToolsWarn "light-estimation is an experimental and unstable feature.") h).

Definition attach : Js bool :=
  ok <- super_attach;
  if negb ok then ret false
  else
    o <- read options;
    pref <- ask preferredReflectionFormat;
    requestLightProbe
      (if truthy_bool (reflectionFormatSRGBA8 o) then "srgba8"
       else nullish pref "srgba8");;
    ret true.

(** The callback given to [then] in [attach]. *)
Definition attach_then (value : XRLightProbe) : Js unit :=
  write (set_xrLightProbe (Some value)).

Definition _getXRGLBinding : Js XRWebGLBinding :=
  b <- read _xrWebGLBinding;
  match b with
  | Some b => ret b
  | None =>
      canvas <- getRenderingCanvas;
      match canvas with
      | None => throw TypeError   (* [getContext] of null *)
      | Some c =>
          context <- getContext c "webgl2";
          context <- (if negb (truthy_ref context) then getContext c "webgl"
                      else ret context);
          match context with
          | None => throw TypeError   (* the constructor rejects a null context *)
          | Some g =>
              b <- newXRWebGLBinding g;
              write (set_xrWebGLBinding (Some b));;
              ret b
          end
      end
  end.

Definition _updateReflectionCubeMap : Js unit :=
  b <- _getXRGLBinding;
  p <- read _xrLightProbe;
  match p with
  | None => throw TypeError   (* the binding rejects a null probe *)
  | Some p =>
      t <- getReflectionCubeMap b p;
      write (set_reflectionCubeMap t)
  end.

(** The condition of the second [if] of the getter: the assignment
    expression [this._reflectionCubeMap = null] stores [null] and has the
    stored value as its value. *)
Definition reflectionCubeMap_guard : Js bool :=
  write (set_reflectionCubeMap None);;
  ret (truthy_ref (@None WebGLTexture)).

Definition reflectionCubeMap : Js (option WebGLTexture) :=
  p <- read _xrLightProbe;
  match p with
  | None => ret None
  | Some p =>
      g <- reflectionCubeMap_guard;
      (if g then
         b <- _getXRGLBinding;
         t <- getReflectionCubeMap b p;
         write (set_reflectionCubeMap t);;
         addEventListener p
       else ret tt);;
      read _reflectionCubeMap
  end.

Definition xrLightProbe : Js (option XRLightProbe) := read _xrLightProbe.

Definition xrLightingEstimate : Js (option XRLightEstimate) := read _xrLightEstimate.

Definition dispose : Js unit :=
  super_dispose;;
  p <- read _xrLightProbe;
  c <- read _reflectionCubeMap;
  match p, c with
  | Some p, Some _ => removeEventListener p
  | _, _ => ret tt
  end;;
  write (set_xrLightProbe None).

Definition _onXRFrame (_xrFrame : XRFrame) : Js unit :=
  p <- read _xrLightProbe;
  match p with
  | Some p =>
      e <- frame_getLightEstimate _xrFrame p;
      write (set_xrLightEstimate e)
  | None => ret tt
  end.

(** ** The event loop

    Everything runs on one loop: calls made by the application and by the
    feature manager, and the settling of the light-probe promise by the
    host.  [attach] installs a fulfilment callback only, so a rejected
    promise runs no code of the class. *)

Inductive Task :=
| Attach
| Dispose
| Frame (f : XRFrame)
| ReadReflectionCubeMap
| ReadLightProbe
| ReadLightingEstimate
| Resolve (value : XRLightProbe)
| Reject.

(** The host settles the oldest pending promise and runs [k]. *)
Definition settle (k : Js unit) : Js unit :=
  q <- ask pendingProbes;
  match q with
  | [] => ret tt
  | _ :: q' => tell (set_pendingProbes q');; k
  end.

Definition perform (t : Task) : Js unit :=
  match t with
  | Attach => attach;; ret tt
  | Dispose => dispose
  | Frame f => _onXRFrame f
  | ReadReflectionCubeMap => reflectionCubeMap;; ret tt
  | ReadLightProbe => xrLightProbe;; ret tt
  | ReadLightingEstimate => xrLightingEstimate;; ret tt
  | Resolve value => settle (attach_then value)
  | Reject => settle (ret tt)
  end.

Fixpoint run (ts : list Task) : Js unit :=
  match ts with
  | [] => ret tt
  | t :: ts' => perform t;; run ts'
  end.

Definition is_resolve (t : Task) : bool :=
  match t with Resolve _ => true | _ => false end.

Definition no_resolve (ts : list Task) : bool :=
  forallb (fun t => negb (is_resolve t)) ts.

(** What holds of an instance on which no probe was ever stored. *)
Definition pristine (s : Sys) : Prop :=
  _xrLightProbe (this s) = None /\ _xrLightEstimate (this s) = None.

(** ** Sample hosts used to exercise the statements *)

Definition canvas0 : HTMLCanvasElement :=
  mkCanvas (Some WebGL2RenderingContext) (Some WebGLRenderingContext).

Definition host_with (pref : option XRReflectionFormat) : Host :=
  mkHost pref (Some canvas0) [] [] 0 [].

Definition frame_const (e : XRLightEstimate) : XRFrame :=
  mkFrame (fun _ => Some e).

(** ** The IBL shadows material plugin

    Class [IBLShadowsPluginMaterial]: the uniforms and samplers it declares,
    the shader code it injects and what it binds for a sub mesh.  Numbers are
    only passed through, so their type is left open; a JavaScript object used
    as a dictionary is an association list in insertion order. *)

Module IBLShadows.

(** The two values of the engine's [ShaderLanguage] enumeration. *)
Inductive ShaderLanguage := GLSL | WGSL.

Definition InternalTexture := nat.

Record UniformDecl := mkUniform {
  uniform_name : string;
  uniform_size : nat;
  uniform_type : string
}.

Record Uniforms := mkUniforms {
  ubo : list UniformDecl;
  fragment : string
}.

Record MaterialIBLShadowsRenderDefines := mkDefines {
  RENDER_WITH_IBL_SHADOWS : bool;
  RSMCREATE_PROJTEXTURE : bool
}.

(** [new MaterialIBLShadowsRenderDefines()] *)
Definition newDefines : MaterialIBLShadowsRenderDefines := mkDefines false false.

(** [obj[key] = value] on a dictionary. *)
Fixpoint set_prop (key value : string) (obj : list (string * string))
  : list (string * string) :=
  match obj with
  | [] => [(key, value)]
  | (k, v) :: rest =>
      if String.eqb k key then (k, value) :: rest
      else (k, v) :: set_prop key value rest
  end.

Section Plugin.

Variable number : Type.

Record IBLShadowsPluginMaterial := mkPlugin {
  (* declared without initialiser: [None] is [undefined] *)
  iblShadowsTexture : option InternalTexture;
  shadowOpacity : number;
  _isEnabled : bool;
  (* [this._material instanceof PBRBaseMaterial] *)
  material_isPBR : bool;
  (* [this._material.getScene().getEngine()] *)
  getRenderWidth : number;
  getRenderHeight : number
}.

(** Calls received by a [UniformBuffer], in program order. *)
Inductive UniformBufferCall :=
| BindTexture (name : string) (texture : option InternalTexture)
| UpdateFloat2 (name : string) (x y : number)
| UpdateFloat (name : string) (x : number).

Definition Name : string := "IBLShadowsPluginMaterial".

Definition isCompatible (p : IBLShadowsPluginMaterial) : bool := true.

Definition prepareDefines (p : IBLShadowsPluginMaterial)
    (defines : MaterialIBLShadowsRenderDefines) : MaterialIBLShadowsRenderDefines :=
  mkDefines (_isEnabled p) (RSMCREATE_PROJTEXTURE defines).

Definition getClassName (p : IBLShadowsPluginMaterial) : string :=
  "IBLShadowsPluginMaterial".

Definition getUniforms (p : IBLShadowsPluginMaterial) : Uniforms :=
  mkUniforms
    [mkUniform "renderTargetSize" 2 "vec2";
     mkUniform "shadowOpacity" 1 "float"]
    "#ifdef RENDER_WITH_IBL_SHADOWS
                    uniform vec2 renderTargetSize;
                    uniform float shadowOpacity;
                #endif".

(** [samplers.push(...)]: the array after the call. *)
Definition getSamplers (p : IBLShadowsPluginMaterial) (samplers : list string)
  : list string :=
  samplers ++ ["iblShadowsTexture"].

(** The uniform buffer's call log after the call. *)
Definition bindForSubMesh (p : IBLShadowsPluginMaterial)
    (uniformBuffer : list UniformBufferCall) : list UniformBufferCall :=
  if _isEnabled p then
    uniformBuffer
      ++ [BindTexture "iblShadowsTexture" (iblShadowsTexture p)]
      ++ [UpdateFloat2 "renderTargetSize" (getRenderWidth p) (getRenderHeight p)]
      ++ [UpdateFloat "shadowOpacity" (shadowOpacity p)]
  else uniformBuffer.

Definition getCustomCode (p : IBLShadowsPluginMaterial)
    (shaderType : string) (shaderLanguage : ShaderLanguage)
  : option (list (string * string)) :=
  let frag :=
    match shaderLanguage with
    | WGSL =>
        let frag := [("CUSTOM_FRAGMENT_DEFINITIONS", "
                #ifdef RENDER_WITH_IBL_SHADOWS
                    var iblShadowsTextureSampler: sampler;
                    var iblShadowsTexture: texture_2d<f32>;

                    fn computeIndirectShadow() -> f32 {
                        var uv = fragmentInputs.position.xy / uniforms.renderTargetSize;
                        var shadowValue: f32 = toLinearSpace(textureSample(iblShadowsTexture, iblShadowsTextureSampler, uv).r);
                        return mix(shadowValue, 1.0, 1.0 - uniforms.shadowOpacity);
                    }
                #endif
            ")] in
        if material_isPBR p then
          set_prop "CUSTOM_FRAGMENT_BEFORE_FINALCOLORCOMPOSITION" "
                #ifdef RENDER_WITH_IBL_SHADOWS
                    #ifdef REFLECTION
                        var shadowValue: f32 = computeIndirectShadow();
                        finalIrradiance *= vec3f(shadowValue);
                        finalRadianceScaled *= vec3f(mix(1.0, shadowValue, roughness));
                    #endif
                #endif
            " frag
        else
          set_prop "CUSTOM_FRAGMENT_BEFORE_FRAGCOLOR" "
                #ifdef RENDER_WITH_IBL_SHADOWS
                    var shadowValue: f32 = computeIndirectShadow();
                    color *= toGammaSpace(vec4f(shadowValue, shadowValue, shadowValue, 1.0f));
                #endif
            " frag
    | GLSL =>
        let frag := [("CUSTOM_FRAGMENT_DEFINITIONS", "
                #ifdef RENDER_WITH_IBL_SHADOWS
                    uniform sampler2D iblShadowsTexture;

                    float computeIndirectShadow() {
                        vec2 uv = gl_FragCoord.xy / renderTargetSize;
                        float shadowValue = toLinearSpace(texture2D(iblShadowsTexture, uv).r);
                        return mix(shadowValue, 1.0, 1.0 - shadowOpacity);
                    }
                #endif
            ")] in
        if material_isPBR p then
          set_prop "CUSTOM_FRAGMENT_BEFORE_FINALCOLORCOMPOSITION" "
                #ifdef RENDER_WITH_IBL_SHADOWS
                    #ifdef REFLECTION
                        float shadowValue = computeIndirectShadow();
                        finalIrradiance *= shadowValue;
                        finalRadianceScaled *= mix(1.0, shadowValue, roughness);
                    #endif
                #endif
            " frag
        else
          set_prop "CUSTOM_FRAGMENT_BEFORE_FRAGCOLOR" "
                #ifdef RENDER_WITH_IBL_SHADOWS
                    color.rgb *= toGammaSpace(computeIndirectShadow());
                #endif
            " frag
    end in
  if String.eqb shaderType "vertex" then None else Some frag.

End Plugin.

Arguments mkPlugin {number}.
Arguments iblShadowsTexture {number}.
Arguments shadowOpacity {number}.
Arguments _isEnabled {number}.
Arguments material_isPBR {number}.
Arguments getRenderWidth {number}.
Arguments getRenderHeight {number}.
Arguments BindTexture {number}.
Arguments UpdateFloat2 {number}.
Arguments UpdateFloat {number}.
Arguments isCompatible {number}.
Arguments prepareDefines {number}.
Arguments getClassName {number}.
Arguments getUniforms {number}.
Arguments getSamplers {number}.
Arguments bindForSubMesh {number}.
Arguments getCustomCode {number}.

(** *** Reading shader text *)

Definition is_blank (c : Ascii.ascii) : bool :=
  Ascii.eqb c (Ascii.ascii_of_nat 32) || Ascii.eqb c (Ascii.ascii_of_nat 10).

Fixpoint skip_blank (s : string) : string :=
  match s with
  | String c s' => if is_blank c then skip_blank s' else s
  | EmptyString => s
  end.

Fixpoint srev_onto (s acc : string) : string :=
  match s with
  | String c s' => srev_onto s' (String c acc)
  | EmptyString => acc
  end.

Definition srev (s : string) : string := srev_onto s EmptyString.

(** Number of positions of [s] at which [sub] starts. *)
Fixpoint count_sub (sub s : string) : nat :=
  match s with
  | String c s' => (if String.prefix sub s then 1 else 0) + count_sub sub s'
  | EmptyString => 0
  end.

Definition contains (sub s : string) : bool :=
  Nat.ltb 0 (count_sub sub s).

(** A snippet is guarded when, blanks apart, it opens with the test of
    RENDER_WITH_IBL_SHADOWS and closes with an [#endif], and has as many
    [#endif] as [#ifdef]. *)
Definition guarded (code : string) : bool :=
  String.prefix "#ifdef RENDER_WITH_IBL_SHADOWS" (skip_blank code)
  && String.prefix (srev "#endif") (skip_blank (srev code))
  && Nat.eqb (count_sub "#ifdef" code) (count_sub "#endif" code).

End IBLShadows.

(** ** Classifying tasks and host calls *)

Definition is_frame (t : Task) : bool :=
  match t with Frame _ => true | _ => false end.

Definition is_dispose (t : Task) : bool :=
  match t with Dispose => true | _ => false end.

(** Tasks that neither store nor clear the probe handle. *)
Definition keeps_probe (ts : list Task) : bool :=
  forallb (fun t => negb (is_resolve t) && negb (is_dispose t)) ts.

(** The host calls of the attach / frame life cycle. *)
Definition lifecycle_call (c : HostCall) : bool :=
  match c with
  | RequestLightProbe _ | GetLightEstimate _ => true
  | _ => false
  end.

(** * Properties *)

Ltac js_unfold :=
  cbv [attach attach_then super_attach super_dispose dispose _onXRFrame
       reflectionCubeMap reflectionCubeMap_guard xrLightProbe xrLightingEstimate
       requestLightProbe removeEventListener frame_getLightEstimate
       settle perform bind ret read write ask tell truthy_ref].

Ltac gl_unfold :=
  cbv [_getXRGLBinding _updateReflectionCubeMap getRenderingCanvas getContext
       newXRWebGLBinding getReflectionCubeMap
       bind ret throw read write ask tell truthy_ref negb].

Ltac exists_nil :=
  eexists; exists (@nil HostCall); rewrite ?app_nil_r; repeat split.

Ltac js_open s :=
  destruct s as [[att opts probe est bnd cube] [pref cnv pend lst tex cls]].

Lemma run_app (ts1 ts2 : list Task) (s : Sys) :
  run (ts1 ++ ts2) s = (run ts1;; run ts2) s.
Proof.
  revert s; induction ts1 as [|t ts1 IH]; intros s; simpl.
  - reflexivity.
  - unfold bind in *. destruct (perform t s) as [[] s'|e s'].
    + apply IH.
    + reflexivity.
Qed.

(** Without a stored probe a frame tick changes nothing at all. *)
Lemma _onXRFrame_without_probe (f : XRFrame) (s : Sys) :
  _xrLightProbe (this s) = None -> _onXRFrame f s = Normal tt s.
Proof.
  js_open s; simpl; intros ->. reflexivity.
Qed.

Lemma frames_without_probe (fs : list XRFrame) (s : Sys) :
  _xrLightProbe (this s) = None -> run (map Frame fs) s = Normal tt s.
Proof.
  intros Hp; induction fs as [|f fs IH]; simpl.
  - reflexivity.
  - unfold bind. rewrite (_onXRFrame_without_probe f s Hp). exact IH.
Qed.

Lemma perform_pristine (t : Task) (s : Sys) :
  is_resolve t = false -> pristine s ->
  exists s', perform t s = Normal tt s' /\ pristine s'.
Proof.
  unfold pristine; js_open s; simpl; intros Ht [-> ->].
  destruct t; try discriminate Ht; js_unfold; simpl.
  - destruct att; simpl; eexists; split; try reflexivity; split; reflexivity.
  - eexists; split; [reflexivity | split; reflexivity].
  - eexists; split; [reflexivity | split; reflexivity].
  - eexists; split; [reflexivity | split; reflexivity].
  - eexists; split; [reflexivity | split; reflexivity].
  - eexists; split; [reflexivity | split; reflexivity].
  - destruct pend; simpl; eexists; split; try reflexivity; split; reflexivity.
Qed.

Lemma run_pristine (ts : list Task) (s : Sys) :
  no_resolve ts = true -> pristine s ->
  exists s', run ts s = Normal tt s' /\ pristine s'.
Proof.
  revert s; induction ts as [|t ts IH]; intros s Hts Hs; simpl.
  - exists s; split; [reflexivity | exact Hs].
  - simpl in Hts. apply andb_true_iff in Hts as [Ht Hts].
    apply negb_true_iff in Ht.
    destruct (perform_pristine t s Ht Hs) as [s1 [E1 H1]].
    destruct (IH s1 Hts H1) as [s2 [E2 H2]].
    exists s2. unfold bind. rewrite E1. split; assumption.
Qed.

Lemma new_pristine (opts : IWebXRLightEstimationOptions) (h : Host) :
  pristine (new opts h).
Proof. split; reflexivity. Qed.

(** ** attach *)

(** C1: when [attach] issues the probe request, the reflection format is
    "srgba8" if [options.reflectionFormatSRGBA8] is true, whatever the
    session prefers; the session's preferred format if the option is false
    and the session reports one; and "srgba8" if the option is false and the
    session reports none. *)
Theorem attach_reflection_format (s : Sys) :
  attached (this s) = false ->
  exists fmt s',
    attach s = Normal true s' /\
    calls (host s') = calls (host s) ++ [RequestLightProbe fmt] /\
    (reflectionFormatSRGBA8 (options (this s)) = Some true -> fmt = "srgba8") /\
    (forall other,
        reflectionFormatSRGBA8 (options (this s)) = Some false ->
        preferredReflectionFormat (host s) = Some other -> fmt = other) /\
    (reflectionFormatSRGBA8 (options (this s)) = Some false ->
     preferredReflectionFormat (host s) = None -> fmt = "srgba8").
Proof.
  js_open s; destruct opts as [o]; simpl; intros ->.
  js_unfold; simpl.
  eexists; eexists; split; [reflexivity|]; simpl.
  split; [reflexivity|].
  repeat split; intros; subst; reflexivity.
Qed.

Lemma attach_reflection_format_witness :
  (exists fmt s',
      attach (new (mkOptions (Some true)) (host_with (Some "rgba16f"))) = Normal true s' /\
      In (RequestLightProbe fmt) (calls (host s')) /\ fmt = "srgba8") /\
  (exists fmt s',
      attach (new (mkOptions (Some false)) (host_with (Some "other"))) = Normal true s' /\
      In (RequestLightProbe fmt) (calls (host s')) /\ fmt = "other") /\
  (exists fmt s',
      attach (new (mkOptions (Some false)) (host_with None)) = Normal true s' /\
      In (RequestLightProbe fmt) (calls (host s')) /\ fmt = "srgba8").
Proof.
  repeat split.
  - destruct (attach_reflection_format
                (new (mkOptions (Some true)) (host_with (Some "rgba16f")))
                eq_refl) as [fmt [s' [E [C [H1 _]]]]].
    exists fmt, s'. split; [exact E|]. split.
    + rewrite C. apply in_or_app. right. left. reflexivity.
    + apply H1. reflexivity.
  - destruct (attach_reflection_format
                (new (mkOptions (Some false)) (host_with (Some "other")))
                eq_refl) as [fmt [s' [E [C [_ [H2 _]]]]]].
    exists fmt, s'. split; [exact E|]. split.
    + rewrite C. apply in_or_app. right. left. reflexivity.
    + apply H2; reflexivity.
  - destruct (attach_reflection_format
                (new (mkOptions (Some false)) (host_with None))
                eq_refl) as [fmt [s' [E [C [_ [_ H3]]]]]].
    exists fmt, s'. split; [exact E|]. split.
    + rewrite C. apply in_or_app. right. left. reflexivity.
    + apply H3; reflexivity.
Defined.

(** C2: if the base attach fails, [attach] returns false and the host sees
    no call at all, in particular no probe request; if the base attach
    succeeds, [attach] returns true with the request just issued still
    pending and the probe field as it was. *)
Theorem attach_base_precondition (s : Sys) :
  (forall s0, super_attach s = Normal false s0 ->
     attach s = Normal false s /\ s0 = s) /\
  (forall s0, super_attach s = Normal true s0 ->
     exists fmt s',
       attach s = Normal true s' /\
       calls (host s') = calls (host s) ++ [RequestLightProbe fmt] /\
       pendingProbes (host s') = pendingProbes (host s) ++ [fmt] /\
       _xrLightProbe (this s') = _xrLightProbe (this s)).
Proof.
  js_open s; split; intros s0; js_unfold; simpl; destruct att; simpl;
    intros E; try discriminate E.
  - inversion E; subst. split; reflexivity.
  - eexists; eexists. split; [reflexivity|]. simpl. repeat split.
Qed.

Lemma attach_base_precondition_witness :
  (let s := mkSys (mkFeature true (mkOptions None) None None None None)
                  (host_with None) in
   attach s = Normal false s) /\
  (exists fmt s',
     attach (new (mkOptions None) (host_with None)) = Normal true s' /\
     pendingProbes (host s') = [fmt] /\ _xrLightProbe (this s') = None).
Proof.
  split.
  - exact (proj1 (proj1 (attach_base_precondition
             (mkSys (mkFeature true (mkOptions None) None None None None)
                    (host_with None))) _ eq_refl)).
  - destruct (proj2 (attach_base_precondition
                       (new (mkOptions None) (host_with None))) _ eq_refl)
      as [fmt [s' [E [_ [P L]]]]].
    exists fmt, s'. split; [exact E|]. split; [exact P | exact L].
Defined.

(** ** Frame ticks *)

(** C3: on an instance on which no probe handle has been stored yet (any
    history of calls, promise rejections included, but no fulfilment), every
    sequence of frame ticks leaves the whole system as it is, and
    [xrLightingEstimate] answers null after each of them. *)
Theorem ticks_before_probe
    (opts : IWebXRLightEstimationOptions) (h : Host)
    (pre : list Task) (frames : list XRFrame) :
  no_resolve pre = true ->
  exists s,
    run pre (new opts h) = Normal tt s /\
    _xrLightProbe (this s) = None /\
    forall k,
      run (map Frame (firstn k frames)) s = Normal tt s /\
      xrLightingEstimate s = Normal None s.
Proof.
  intros Hpre.
  destruct (run_pristine pre (new opts h) Hpre (new_pristine opts h))
    as [s [E [Hp He]]].
  exists s. split; [exact E|]. split; [exact Hp|].
  intros k. split.
  - apply frames_without_probe. exact Hp.
  - unfold xrLightingEstimate, read. rewrite He. reflexivity.
Qed.

Lemma ticks_before_probe_witness :
  exists s,
    run [Attach; Frame (frame_const 5); Reject; Dispose]
        (new (mkOptions None) (host_with None)) = Normal tt s /\
    _xrLightProbe (this s) = None /\
    forall k,
      run (map Frame (firstn k [frame_const 1; frame_const 2; frame_const 3])) s
        = Normal tt s /\
      xrLightingEstimate s = Normal None s.
Proof.
  apply (ticks_before_probe (mkOptions None) (host_with None)
           [Attach; Frame (frame_const 5); Reject; Dispose]
           [frame_const 1; frame_const 2; frame_const 3]).
  reflexivity.
Defined.

Lemma _onXRFrame_with_probe (f : XRFrame) (s : Sys) (p : XRLightProbe) :
  _xrLightProbe (this s) = Some p ->
  _onXRFrame f s =
    Normal tt (mkSys (set_xrLightEstimate (getLightEstimate f p) (this s))
                     (log (GetLightEstimate p) (host s))).
Proof.
  js_open s; simpl; intros ->. reflexivity.
Qed.

Lemma frames_keep_probe (fs : list XRFrame) (s : Sys) (p : XRLightProbe) :
  _xrLightProbe (this s) = Some p ->
  exists s', run (map Frame fs) s = Normal tt s' /\
             _xrLightProbe (this s') = Some p.
Proof.
  revert s; induction fs as [|f fs IH]; intros s Hp; simpl.
  - exists s; split; [reflexivity | exact Hp].
  - unfold bind. rewrite (_onXRFrame_with_probe f s p Hp).
    apply IH. exact Hp.
Qed.

(** C4: with a probe handle stored, a frame tick asks the frame for the
    estimate of that probe exactly once and stores the answer as the most
    recent estimate; the outcome does not depend on the estimate stored
    before, and after any sequence of ticks the stored estimate is the one of
    the last frame. *)
Theorem tick_overwrites_estimate (s : Sys) (p : XRLightProbe) (f : XRFrame) :
  _xrLightProbe (this s) = Some p ->
  (exists s',
     _onXRFrame f s = Normal tt s' /\
     _xrLightEstimate (this s') = getLightEstimate f p /\
     _xrLightProbe (this s') = Some p /\
     calls (host s') = calls (host s) ++ [GetLightEstimate p]) /\
  (forall e0,
     _onXRFrame f (mkSys (set_xrLightEstimate e0 (this s)) (host s))
       = _onXRFrame f s) /\
  (forall fs, exists s',
     run (map Frame (fs ++ [f])) s = Normal tt s' /\
     xrLightingEstimate s' = Normal (getLightEstimate f p) s').
Proof.
  intros Hp. split; [|split].
  - eexists. split; [apply _onXRFrame_with_probe; exact Hp|].
    simpl. repeat split. exact Hp.
  - intros e0. js_open s; simpl in *; subst probe. reflexivity.
  - intros fs. rewrite map_app, run_app. unfold bind at 1.
    destruct (frames_keep_probe fs s p Hp) as [s1 [E1 H1]].
    rewrite E1. simpl. unfold bind.
    rewrite (_onXRFrame_with_probe f s1 p H1). simpl.
    eexists. split; reflexivity.
Qed.

Lemma tick_overwrites_estimate_witness :
  exists s',
    run (map Frame ([frame_const 4; frame_const 8] ++ [frame_const 15]))
        (mkSys (mkFeature true (mkOptions None) (Some 1) (Some 2) None None)
               (host_with None)) = Normal tt s' /\
    xrLightingEstimate s' = Normal (Some 15) s'.
Proof.
  exact (proj2 (proj2 (tick_overwrites_estimate
           (mkSys (mkFeature true (mkOptions None) (Some 1) (Some 2) None None)
                  (host_with None)) 1 (frame_const 15) eq_refl))
           [frame_const 4; frame_const 8]).
Defined.

(** ** The reflection cube map *)

(** The guard of the getter stores null and is false, in every state. *)
Lemma reflectionCubeMap_guard_false (s : Sys) :
  reflectionCubeMap_guard s =
    Normal false (mkSys (set_reflectionCubeMap None (this s)) (host s)).
Proof. reflexivity. Qed.

Lemma reflectionCubeMap_with_probe (s : Sys) (p : XRLightProbe) :
  _xrLightProbe (this s) = Some p ->
  reflectionCubeMap s =
    Normal None (mkSys (set_reflectionCubeMap None (this s)) (host s)).
Proof.
  js_open s; simpl; intros ->. reflexivity.
Qed.

Lemma reflectionCubeMap_no_probe (s : Sys) :
  _xrLightProbe (this s) = None -> reflectionCubeMap s = Normal None s.
Proof.
  js_open s; simpl; intros ->. reflexivity.
Qed.

(** C5: the getter never hands out a cube map.  In every state, with or
    without a probe handle and whatever the field held before, it answers
    null, leaves the host untouched (no binding, no texture, no listener)
    and leaves the field null when a probe is present. *)
Theorem reflectionCubeMap_never_materialised (s : Sys) :
  exists s',
    reflectionCubeMap s = Normal None s' /\
    host s' = host s /\
    (_xrLightProbe (this s) <> None -> _reflectionCubeMap (this s') = None) /\
    exists s'', reflectionCubeMap s' = Normal None s'' /\ host s'' = host s.
Proof.
  destruct (_xrLightProbe (this s)) as [p|] eqn:Hp.
  - exists (mkSys (set_reflectionCubeMap None (this s)) (host s)).
    split; [apply (reflectionCubeMap_with_probe s p Hp)|].
    split; [reflexivity|]. split; [reflexivity|].
    eexists. split.
    + apply (reflectionCubeMap_with_probe _ p). exact Hp.
    + reflexivity.
  - exists s. split; [apply reflectionCubeMap_no_probe; exact Hp|].
    split; [reflexivity|]. split; [intros H; contradiction H; reflexivity|].
    exists s. split; [apply reflectionCubeMap_no_probe; exact Hp | reflexivity].
Qed.

(** C6, as stated, fails.  At the state reached by attach and fulfilment
    with probe 1 a probe handle is present, yet the guard is not true, and
    the access neither regenerates the cube map nor registers a listener:
    the host sees no call, and the answer is null. *)
Lemma reflectionCubeMap_regeneration_counterexample :
  exists s,
    run [Attach; Resolve 1] (new (mkOptions None) (host_with None)) = Normal tt s /\
    _xrLightProbe (this s) = Some 1 /\
    (forall s0, reflectionCubeMap_guard s <> Normal true s0) /\
    (forall t s',
        reflectionCubeMap s = Normal t s' ->
        t = None /\
        ~ In (GetReflectionCubeMap 1) (calls (host s')) /\
        ~ In (AddEventListener 1) (calls (host s')) /\
        listeners (host s') = [] /\ textures (host s') = 0).
Proof.
  eexists. split; [reflexivity|]. split; [reflexivity|]. split.
  - intros s0 G. rewrite reflectionCubeMap_guard_false in G. discriminate G.
  - intros t s' E. cbv in E. inversion E; subst; simpl.
    split; [reflexivity|]. split; [|split; [|split; reflexivity]].
    + intros [H|[H|[]]]; discriminate H.
    + intros [H|[H|[]]]; discriminate H.
Qed.

(** C6, amended: with a probe handle present the guard of the getter stores
    null into the cube-map field and evaluates to false, so an access never
    generates a cube map and never registers a listener: it answers null and
    changes nothing but the cube-map field, which is null afterwards. *)
Theorem reflectionCubeMap_guard_never_taken (s : Sys) (p : XRLightProbe) :
  _xrLightProbe (this s) = Some p ->
  (exists s1, reflectionCubeMap_guard s = Normal false s1) /\
  reflectionCubeMap s =
    Normal None (mkSys (set_reflectionCubeMap None (this s)) (host s)).
Proof.
  intros Hp. split.
  - eexists. apply reflectionCubeMap_guard_false.
  - apply (reflectionCubeMap_with_probe s p Hp).
Qed.

Lemma reflectionCubeMap_guard_never_taken_witness :
  let s := mkSys (mkFeature true (mkOptions None) (Some 1) None None (Some 9))
                 (host_with None) in
  (exists s1, reflectionCubeMap_guard s = Normal false s1) /\
  reflectionCubeMap s =
    Normal None (mkSys (set_reflectionCubeMap None (this s)) (host s)).
Proof.
  exact (reflectionCubeMap_guard_never_taken
           (mkSys (mkFeature true (mkOptions None) (Some 1) None None (Some 9))
                  (host_with None)) 1 eq_refl).
Defined.

(** C9: without a probe handle the getter answers null and changes nothing:
    no binding is obtained and nothing is allocated.  This is the situation
    after any history without a fulfilment, so in particular while the
    request is pending and after it was rejected. *)
Theorem reflectionCubeMap_without_probe :
  (forall s, _xrLightProbe (this s) = None ->
             reflectionCubeMap s = Normal None s) /\
  (forall opts h pre,
      no_resolve pre = true ->
      exists s, run pre (new opts h) = Normal tt s /\
                reflectionCubeMap s = Normal None s).
Proof.
  split.
  - exact reflectionCubeMap_no_probe.
  - intros opts h pre Hpre.
    destruct (run_pristine pre (new opts h) Hpre (new_pristine opts h))
      as [s [E [Hp _]]].
    exists s. split; [exact E | apply reflectionCubeMap_no_probe; exact Hp].
Qed.

Lemma reflectionCubeMap_without_probe_witness :
  (reflectionCubeMap (new (mkOptions None) (host_with None))
     = Normal None (new (mkOptions None) (host_with None))) /\
  (exists s, run [Attach; Reject] (new (mkOptions None) (host_with None))
               = Normal tt s /\
             reflectionCubeMap s = Normal None s).
Proof.
  split.
  - exact (proj1 reflectionCubeMap_without_probe
             (new (mkOptions None) (host_with None)) eq_refl).
  - exact (proj2 reflectionCubeMap_without_probe
             (mkOptions None) (host_with None) [Attach; Reject] eq_refl).
Defined.

(** No history ever lets the class register its listener or obtain a
    texture: every history completes normally, the cube-map field stays
    null and the host's listeners and textures stay as they were. *)
Lemma perform_never_registers (t : Task) (s : Sys) :
  _reflectionCubeMap (this s) = None ->
  exists s', perform t s = Normal tt s' /\
             _reflectionCubeMap (this s') = None /\
             listeners (host s') = listeners (host s) /\
             textures (host s') = textures (host s).
Proof.
  js_open s; simpl; intros ->.
  destruct t; js_unfold; simpl.
  - destruct att; simpl; eexists; split; try reflexivity; repeat split.
  - destruct probe; simpl; eexists; split; try reflexivity; repeat split.
  - destruct probe; simpl; eexists; split; try reflexivity; repeat split.
  - destruct probe; simpl; eexists; split; try reflexivity; repeat split.
  - eexists; split; [reflexivity | repeat split].
  - eexists; split; [reflexivity | repeat split].
  - destruct pend; simpl; eexists; split; try reflexivity; repeat split.
  - destruct pend; simpl; eexists; split; try reflexivity; repeat split.
Qed.

Lemma run_never_registers (ts : list Task)
    (opts : IWebXRLightEstimationOptions) (h : Host) :
  exists s, run ts (new opts h) = Normal tt s /\
            _reflectionCubeMap (this s) = None /\
            listeners (host s) = listeners h /\
            textures (host s) = textures h.
Proof.
  assert (G : forall s0, _reflectionCubeMap (this s0) = None ->
            exists s, run ts s0 = Normal tt s /\
                      _reflectionCubeMap (this s) = None /\
                      listeners (host s) = listeners (host s0) /\
                      textures (host s) = textures (host s0)).
  { induction ts as [|t ts IH]; intros s0 H0; simpl.
    - exists s0. repeat split. exact H0.
    - destruct (perform_never_registers t s0 H0) as [s1 [E1 [C1 [L1 T1]]]].
      destruct (IH s1 C1) as [s2 [E2 [C2 [L2 T2]]]].
      exists s2. unfold bind. rewrite E1. split; [exact E2|].
      split; [exact C2|]. split; congruence. }
  destruct (G (new opts h) eq_refl) as [s [E [C [L T]]]].
  exists s. repeat split; assumption.
Qed.

(** ** dispose *)

Lemma filter_out_not_in (p : XRLightProbe) (l : list XRLightProbe) :
  ~ In p (filter (fun q => negb (Nat.eqb p q)) l).
Proof.
  intros H. apply filter_In in H as [_ H].
  rewrite Nat.eqb_refl in H. discriminate H.
Qed.

(** C7: two calls of [dispose] in a row both complete without throwing and
    each leaves the probe handle null.  The first one unregisters the
    listener exactly when the instance holds what a registration leaves
    behind (a probe handle and a cube map), with a single call after which
    the listener is no longer registered, and otherwise makes no host call;
    the second one makes no host call at all, so the listener is not
    unregistered a second time.  On an instance reached by any history of
    calls no listener was ever registered, and the two calls leave the host
    as it is. *)
Theorem dispose_twice (s : Sys) :
  exists s1 s2,
    dispose s = Normal tt s1 /\
    dispose s1 = Normal tt s2 /\
    _xrLightProbe (this s1) = None /\
    _xrLightProbe (this s2) = None /\
    host s2 = host s1 /\
    (forall p,
        _xrLightProbe (this s) = Some p ->
        _reflectionCubeMap (this s) <> None ->
        calls (host s1) = calls (host s) ++ [RemoveEventListener p] /\
        ~ In p (listeners (host s1))) /\
    (_xrLightProbe (this s) = None \/ _reflectionCubeMap (this s) = None ->
     host s1 = host s) /\
    (forall opts h ts,
        run ts (new opts h) = Normal tt s ->
        host s2 = host s /\ listeners (host s2) = listeners h).
Proof.
  assert (R : forall opts h ts, run ts (new opts h) = Normal tt s ->
                _reflectionCubeMap (this s) = None /\
                listeners (host s) = listeners h).
  { intros opts h ts E.
    destruct (run_never_registers ts opts h) as [s' [E' [C [L _]]]].
    rewrite E in E'. inversion E'; subst. split; assumption. }
  revert R. js_open s. js_unfold. simpl.
  destruct probe as [p|], cube as [c|]; simpl; intros R;
    eexists; eexists; (split; [reflexivity|]); simpl;
    (split; [reflexivity|]); simpl;
    (split; [reflexivity|]); (split; [reflexivity|]);
    (split; [reflexivity|]); (split; [|split]);
    try (intros o h ts E; destruct (R o h ts E) as [C L];
         first [discriminate C | split; [reflexivity | exact L]]).
  - intros q Hq _. inversion Hq; subst. split.
    + reflexivity.
    + apply filter_out_not_in.
  - intros [H|H]; discriminate H.
  - intros q _ Hc. contradiction Hc. reflexivity.
  - intros _. reflexivity.
  - intros q Hq _. discriminate Hq.
  - intros _. reflexivity.
  - intros q Hq _. discriminate Hq.
  - intros _. reflexivity.
Qed.

Lemma dispose_twice_witness :
  (let s := mkSys (mkFeature true (mkOptions None) (Some 1) None None (Some 9))
                  (mkHost None (Some canvas0) [] [1] 1
                          [RequestLightProbe "srgba8"; GetReflectionCubeMap 1;
                           AddEventListener 1]) in
   exists s1 s2,
     dispose s = Normal tt s1 /\ dispose s1 = Normal tt s2 /\
     calls (host s2) = calls (host s) ++ [RemoveEventListener 1] /\
     ~ In 1 (listeners (host s2))) /\
  (exists s s1 s2,
     run [Attach; Resolve 1; ReadReflectionCubeMap]
         (new (mkOptions None) (host_with None)) = Normal tt s /\
     dispose s = Normal tt s1 /\ dispose s1 = Normal tt s2 /\
     host s2 = host s /\ listeners (host s2) = []).
Proof.
  split.
  - intros s.
    destruct (dispose_twice s) as [s1 [s2 [E1 [E2 [_ [_ [H21 [Hr _]]]]]]]].
    exists s1, s2. split; [exact E1|]. split; [exact E2|].
    rewrite H21. apply (Hr 1); [reflexivity | discriminate].
  - eexists.
    destruct (dispose_twice
                (mkSys (mkFeature true (mkOptions None) (Some 1) None None None)
                       (mkHost None (Some canvas0) [] [] 0
                          [ToolsWarn "light-estimation is an experimental and unstable feature.";
                           RequestLightProbe "srgba8"])))
      as [s1 [s2 [E1 [E2 [_ [_ [_ [_ [_ Hrun]]]]]]]]].
    exists s1, s2. split; [reflexivity|]. split; [exact E1|]. split; [exact E2|].
    apply (Hrun (mkOptions None) (host_with None)
                [Attach; Resolve 1; ReadReflectionCubeMap]).
    reflexivity.
Defined.

(** C8: attach, then dispose while the request is in flight, then
    fulfilment with [value]: after dispose the probe field is null and the
    request is still pending; the fulfilment callback then stores [value],
    so the disposed (detached) instance holds a probe handle again. *)
Theorem resolve_after_dispose
    (opts : IWebXRLightEstimationOptions) (h : Host) (value : XRLightProbe) :
  exists s1 s2,
    run [Attach; Dispose] (new opts h) = Normal tt s1 /\
    _xrLightProbe (this s1) = None /\
    pendingProbes (host s1) <> [] /\
    perform (Resolve value) s1 = Normal tt s2 /\
    _xrLightProbe (this s2) = Some value /\
    attached (this s2) = false /\
    run [Attach; Dispose; Resolve value] (new opts h) = Normal tt s2.
Proof.
  destruct h as [pref cnv pend lst tex cls], opts as [o].
  unfold run, new. js_unfold.
  destruct pend as [|r pend]; simpl;
    eexists; eexists; (split; [reflexivity|]); simpl;
    (split; [reflexivity|]); (split; [discriminate|]);
    (split; [reflexivity|]); simpl; repeat split.
Qed.

(** C10: [dispose] clears the probe handle and leaves the most recent
    estimate as it is: an estimate stored before [dispose] is what
    [xrLightingEstimate] answers afterwards. *)
Theorem dispose_keeps_estimate (s : Sys) :
  exists s',
    dispose s = Normal tt s' /\
    _xrLightProbe (this s') = None /\
    _xrLightEstimate (this s') = _xrLightEstimate (this s) /\
    forall e, _xrLightEstimate (this s) = Some e ->
              xrLightingEstimate s' = Normal (Some e) s'.
Proof.
  js_open s. js_unfold. simpl.
  destruct probe as [p|], cube as [c|]; simpl;
    eexists; (split; [reflexivity|]); simpl; repeat split;
    intros e ->; reflexivity.
Qed.

Lemma dispose_keeps_estimate_witness :
  exists s s',
    run [Attach; Resolve 1; Frame (frame_const 7)]
        (new (mkOptions None) (host_with None)) = Normal tt s /\
    _xrLightEstimate (this s) = Some 7 /\
    dispose s = Normal tt s' /\
    xrLightingEstimate s' = Normal (Some 7) s'.
Proof.
  eexists.
  destruct (dispose_keeps_estimate
              (mkSys (mkFeature true (mkOptions None) (Some 1) (Some 7) None None)
                     (mkHost None (Some canvas0) [] [] 0
                        [ToolsWarn "light-estimation is an experimental and unstable feature.";
                         RequestLightProbe "srgba8"; GetLightEstimate 1])))
    as [s' [E [_ [_ H]]]].
  exists s'. split; [reflexivity|]. split; [reflexivity|].
  split; [exact E | apply H; reflexivity].
Defined.

(** * Further properties of the class *)

(** ** The WebGL binding *)

(** X1: once [_getXRGLBinding] has returned a binding, the binding is stored
    in the instance, and every further call returns the same binding and
    leaves the whole system, host call log included, as it is. *)
Theorem getXRGLBinding_cached_after_success
    (s s' : Sys) (b : XRWebGLBinding) :
  _getXRGLBinding s = Normal b s' ->
  _xrWebGLBinding (this s') = Some b /\
  _getXRGLBinding s' = Normal b s'.
Proof.
  js_open s. gl_unfold. simpl.
  destruct bnd as [b0|]; simpl.
  - intros E; inversion E; subst. split; reflexivity.
  - destruct cnv as [[[g2|] [g1|]]|]; simpl; intros E;
      try discriminate E; inversion E; subst; split; reflexivity.
Qed.

Lemma getXRGLBinding_cached_after_success_witness :
  exists b s',
    _getXRGLBinding (new (mkOptions None) (host_with None)) = Normal b s' /\
    _xrWebGLBinding (this s') = Some b /\
    _getXRGLBinding s' = Normal b s'.
Proof.
  eexists; eexists. split; [reflexivity|].
  apply (getXRGLBinding_cached_after_success
           (new (mkOptions None) (host_with None))).
  reflexivity.
Defined.

(** X2: with no binding stored and a canvas that offers a webgl2 context,
    [_getXRGLBinding] builds the binding on that context: the host is asked
    for the canvas, for "webgl2" and for the binding, in this order, and is
    never asked for "webgl". *)
Theorem getXRGLBinding_prefers_webgl2
    (s : Sys) (c : HTMLCanvasElement) (g : GLContext) :
  _xrWebGLBinding (this s) = None ->
  renderingCanvas (host s) = Some c ->
  canvas_webgl2 c = Some g ->
  _getXRGLBinding s =
    Normal (mkBinding g)
      (mkSys (set_xrWebGLBinding (Some (mkBinding g)) (this s))
             (log (NewXRWebGLBinding g)
                (log (GetContext "webgl2")
                   (log GetRenderingCanvas (host s))))).
Proof.
  js_open s. simpl. intros -> -> Hg. destruct c as [g2 g1]. simpl in Hg.
  subst g2. reflexivity.
Qed.

Lemma getXRGLBinding_prefers_webgl2_witness :
  exists s',
    _getXRGLBinding (new (mkOptions None) (host_with None))
      = Normal (mkBinding WebGL2RenderingContext) s' /\
    ~ In (GetContext "webgl") (calls (host s')).
Proof.
  eexists. split.
  - apply (getXRGLBinding_prefers_webgl2
             (new (mkOptions None) (host_with None)) canvas0
             WebGL2RenderingContext); reflexivity.
  - simpl. intros [H|[H|[H|[H|[]]]]]; discriminate H.
Defined.

(** X3: with no binding stored and a canvas that offers no webgl2 context
    but a webgl one, [_getXRGLBinding] falls back: it asks for "webgl2", then
    for "webgl", and builds the binding on the webgl context. *)
Theorem getXRGLBinding_falls_back_to_webgl
    (s : Sys) (c : HTMLCanvasElement) (g : GLContext) :
  _xrWebGLBinding (this s) = None ->
  renderingCanvas (host s) = Some c ->
  canvas_webgl2 c = None ->
  canvas_webgl c = Some g ->
  _getXRGLBinding s =
    Normal (mkBinding g)
      (mkSys (set_xrWebGLBinding (Some (mkBinding g)) (this s))
             (log (NewXRWebGLBinding g)
                (log (GetContext "webgl")
                   (log (GetContext "webgl2")
                      (log GetRenderingCanvas (host s)))))).
Proof.
  js_open s. simpl. intros -> -> H2 H1. destruct c as [g2 g1]. simpl in H2, H1.
  subst g2 g1. reflexivity.
Qed.

Lemma getXRGLBinding_falls_back_to_webgl_witness :
  exists s',
    _getXRGLBinding
      (new (mkOptions None)
           (mkHost None (Some (mkCanvas None (Some WebGLRenderingContext)))
                   [] [] 0 []))
      = Normal (mkBinding WebGLRenderingContext) s' /\
    _xrWebGLBinding (this s') = Some (mkBinding WebGLRenderingContext).
Proof.
  eexists. split.
  - apply (getXRGLBinding_falls_back_to_webgl
             (new (mkOptions None)
                  (mkHost None (Some (mkCanvas None (Some WebGLRenderingContext)))
                          [] [] 0 []))
             (mkCanvas None (Some WebGLRenderingContext))
             WebGLRenderingContext); reflexivity.
  - reflexivity.
Defined.





(** ** The life cycle as a whole *)

Lemma perform_keeps_probe (t : Task) (s : Sys) (p : XRLightProbe) :
  is_resolve t = false -> is_dispose t = false ->
  _xrLightProbe (this s) = Some p ->
  exists s', perform t s = Normal tt s' /\ _xrLightProbe (this s') = Some p.
Proof.
  js_open s; simpl; intros Hr Hd ->.
  destruct t; try discriminate Hr; try discriminate Hd; js_unfold; simpl.
  - destruct att; simpl; eexists; split; reflexivity.
  - eexists; split; reflexivity.
  - eexists; split; reflexivity.
  - eexists; split; reflexivity.
  - eexists; split; reflexivity.
  - destruct pend; simpl; eexists; split; reflexivity.
Qed.

(** X6: a stored probe handle is stable.  Whatever sequence of attach
    calls, frame ticks, accessor reads and promise rejections runs on an
    instance that holds a probe handle, the sequence completes without
    throwing and [xrLightProbe] still answers the same handle; only a
    fulfilment or [dispose] changes it. *)
Theorem run_keeps_probe (ts : list Task) (s : Sys) (p : XRLightProbe) :
  keeps_probe ts = true ->
  _xrLightProbe (this s) = Some p ->
  exists s', run ts s = Normal tt s' /\
             xrLightProbe s' = Normal (Some p) s'.
Proof.
  revert s; induction ts as [|t ts IH]; intros s Hts Hp; simpl.
  - exists s. split; [reflexivity|].
    unfold xrLightProbe, read. rewrite Hp. reflexivity.
  - simpl in Hts. apply andb_true_iff in Hts as [Ht Hts].
    apply andb_true_iff in Ht as [Hr Hd].
    apply negb_true_iff in Hr. apply negb_true_iff in Hd.
    destruct (perform_keeps_probe t s p Hr Hd Hp) as [s1 [E1 H1]].
    unfold bind. rewrite E1. apply IH; assumption.
Qed.

Lemma run_keeps_probe_witness :
  exists s s',
    run [Attach; Resolve 4] (new (mkOptions None) (host_with None))
      = Normal tt s /\
    run [Frame (frame_const 1); ReadReflectionCubeMap; Attach; Reject;
         Frame (frame_const 2); ReadLightingEstimate] s = Normal tt s' /\
    xrLightProbe s' = Normal (Some 4) s'.
Proof.
  eexists. 
  destruct (run_keeps_probe
              [Frame (frame_const 1); ReadReflectionCubeMap; Attach; Reject;
               Frame (frame_const 2); ReadLightingEstimate]
              (mkSys (mkFeature true (mkOptions None) (Some 4) None None None)
                     (mkHost None (Some canvas0) [] [] 0
                        [ToolsWarn "light-estimation is an experimental and unstable feature.";
                         RequestLightProbe "srgba8"]))
              4 eq_refl eq_refl) as [s' [E H]].
  exists s'. split; [reflexivity|]. split; [exact E | exact H].
Defined.

Lemma perform_without_frame (t : Task) (s : Sys) :
  is_frame t = false ->
  exists s', perform t s = Normal tt s' /\
             _xrLightEstimate (this s') = _xrLightEstimate (this s).
Proof.
  js_open s; simpl; intros Hf.
  destruct t; try discriminate Hf; js_unfold; simpl.
  - destruct att; simpl; eexists; split; reflexivity.
  - destruct probe, cube; simpl; eexists; split; reflexivity.
  - destruct probe; simpl; eexists; split; reflexivity.
  - eexists; split; reflexivity.
  - eexists; split; reflexivity.
  - destruct pend; simpl; eexists; split; reflexivity.
  - destruct pend; simpl; eexists; split; reflexivity.
Qed.

(** X7: only a frame tick changes the most recent estimate.  Any sequence
    of attach and dispose calls, accessor reads, fulfilments and rejections,
    from any state, completes without throwing and leaves what
    [xrLightingEstimate] answers as it was. *)
Theorem run_without_frames_keeps_estimate (ts : list Task) (s : Sys) :
  forallb (fun t => negb (is_frame t)) ts = true ->
  exists s', run ts s = Normal tt s' /\
             xrLightingEstimate s' = Normal (_xrLightEstimate (this s)) s'.
Proof.
  revert s; induction ts as [|t ts IH]; intros s Hts; simpl.
  - exists s. split; reflexivity.
  - simpl in Hts. apply andb_true_iff in Hts as [Ht Hts].
    apply negb_true_iff in Ht.
    destruct (perform_without_frame t s Ht) as [s1 [E1 H1]].
    destruct (IH s1 Hts) as [s2 [E2 H2]].
    exists s2. unfold bind. rewrite E1. split; [exact E2|].
    rewrite H2, H1. reflexivity.
Qed.

Lemma run_without_frames_keeps_estimate_witness :
  let s := mkSys (mkFeature true (mkOptions None) (Some 1) (Some 6) None None)
                 (host_with None) in
  exists s',
    run [Dispose; Attach; Resolve 2; ReadReflectionCubeMap; Dispose] s
      = Normal tt s' /\
    xrLightingEstimate s' = Normal (Some 6) s'.
Proof.
  intros s.
  apply (run_without_frames_keeps_estimate
           [Dispose; Attach; Resolve 2; ReadReflectionCubeMap; Dispose] s).
  reflexivity.
Defined.



Lemma perform_lifecycle (t : Task) (s : Sys) :
  _reflectionCubeMap (this s) = None ->
  _xrWebGLBinding (this s) = None ->
  exists s' l,
    perform t s = Normal tt s' /\
    _reflectionCubeMap (this s') = None /\
    _xrWebGLBinding (this s') = None /\
    calls (host s') = calls (host s) ++ l /\
    forallb lifecycle_call l = true.
Proof.
  js_open s; simpl; intros -> ->.
  destruct t; js_unfold; simpl.
  - destruct att; simpl.
    + exists_nil.
    + eexists; eexists (_ :: nil). repeat split.
  - destruct probe; simpl; exists_nil.
  - destruct probe; simpl.
    + eexists; eexists (_ :: nil). repeat split.
    + exists_nil.
  - destruct probe; simpl; exists_nil.
  - exists_nil.
  - exists_nil.
  - destruct pend; simpl; exists_nil.
  - destruct pend; simpl; exists_nil.
Qed.

(** X9: no history of public calls, frame ticks and promise settlements on
    a freshly constructed instance ever throws, and none ever reaches the
    WebGL side: after the constructor's warning the host sees only
    light-probe requests and light-estimate queries (no canvas or context
    lookup, no binding, no cube map, no listener registration or removal),
    and the binding field stays null. *)
Theorem run_only_lifecycle_calls
    (ts : list Task) (opts : IWebXRLightEstimationOptions) (h : Host) :
  exists s l,
    run ts (new opts h) = Normal tt s /\
    calls (host s) = calls (host (new opts h)) ++ l /\
    forallb lifecycle_call l = true /\
    _xrWebGLBinding (this s) = None.
Proof.
  assert (G : forall s0,
             _reflectionCubeMap (this s0) = None ->
             _xrWebGLBinding (this s0) = None ->
             exists s l,
               run ts s0 = Normal tt s /\
               _reflectionCubeMap (this s) = None /\
               _xrWebGLBinding (this s) = None /\
               calls (host s) = calls (host s0) ++ l /\
               forallb lifecycle_call l = true).
  { induction ts as [|t ts IH]; intros s0 Hc Hb; simpl.
    - exists s0, []. rewrite app_nil_r. repeat split; assumption.
    - destruct (perform_lifecycle t s0 Hc Hb)
        as [s1 [l1 [E1 [C1 [B1 [L1 F1]]]]]].
      destruct (IH s1 C1 B1) as [s2 [l2 [E2 [C2 [B2 [L2 F2]]]]]].
      exists s2, (l1 ++ l2). unfold bind. rewrite E1.
      split; [exact E2|]. split; [exact C2|]. split; [exact B2|]. split.
      + rewrite L2, L1, app_assoc. reflexivity.
      + rewrite forallb_app, F1, F2. reflexivity. }
  destruct (G (new opts h) eq_refl eq_refl) as [s [l [E [_ [B [L F]]]]]].
  exists s, l. repeat split; assumption.
Qed.

(** X10: when [options.reflectionFormatSRGBA8] is absent, [attach] treats it
    like false: the request carries the session's preferred format if the
    session reports one (an empty string included) and "srgba8" otherwise.
    In every case the requested format is "srgba8" or the preferred one. *)
Theorem attach_option_absent (s : Sys) :
  attached (this s) = false ->
  exists fmt s',
    attach s = Normal true s' /\
    calls (host s') = calls (host s) ++ [RequestLightProbe fmt] /\
    (fmt = "srgba8" \/ preferredReflectionFormat (host s) = Some fmt) /\
    (reflectionFormatSRGBA8 (options (this s)) = None ->
     fmt = match preferredReflectionFormat (host s) with
           | Some f => f
           | None => "srgba8"
           end).
Proof.
  js_open s; destruct opts as [o]; simpl; intros ->.
  js_unfold; simpl.
  eexists; eexists; split; [reflexivity|]; simpl.
  split; [reflexivity|]. split.
  - destruct o as [[|]|], pref; simpl; auto.
  - intros ->. destruct pref; reflexivity.
Qed.

Lemma attach_option_absent_witness :
  (exists fmt s',
      attach (new (mkOptions None) (host_with (Some "rgba16f"))) = Normal true s' /\
      calls (host s') =
        calls (host (new (mkOptions None) (host_with (Some "rgba16f"))))
          ++ [RequestLightProbe fmt] /\
      fmt = "rgba16f") /\
  (exists fmt s',
      attach (new (mkOptions None) (host_with (Some EmptyString))) = Normal true s' /\
      calls (host s') =
        calls (host (new (mkOptions None) (host_with (Some EmptyString))))
          ++ [RequestLightProbe fmt] /\
      fmt = EmptyString).
Proof.
  split.
  - destruct (attach_option_absent
                (new (mkOptions None) (host_with (Some "rgba16f"))) eq_refl)
      as [fmt [s' [E [C [_ H]]]]].
    exists fmt, s'. split; [exact E|]. split; [exact C|]. apply H. reflexivity.
  - destruct (attach_option_absent
                (new (mkOptions None) (host_with (Some EmptyString))) eq_refl)
      as [fmt [s' [E [C [_ H]]]]].
    exists fmt, s'. split; [exact E|]. split; [exact C|]. apply H. reflexivity.
Defined.

(** * Properties of the IBL shadows material plugin *)

Module IBLShadowsFacts.
Import IBLShadows.

(** X11: [bindForSubMesh] does nothing to the uniform buffer while the
    plugin is disabled.  When it is enabled it appends exactly three calls:
    the texture is bound under the sampler name that [getSamplers] adds, and
    each uniform is written under a name that [getUniforms] declares in the
    ubo, with as many floats as the declared size. *)
Theorem bindForSubMesh_matches_declarations
    (number : Type) (p : IBLShadowsPluginMaterial number)
    (uniformBuffer : list (UniformBufferCall number)) :
  (_isEnabled p = false -> bindForSubMesh p uniformBuffer = uniformBuffer) /\
  (_isEnabled p = true ->
   exists added,
     bindForSubMesh p uniformBuffer = uniformBuffer ++ added /\
     added = [BindTexture "iblShadowsTexture" (iblShadowsTexture p);
              UpdateFloat2 "renderTargetSize" (getRenderWidth p) (getRenderHeight p);
              UpdateFloat "shadowOpacity" (shadowOpacity p)] /\
     forall c, In c added ->
       match c with
       | BindTexture name _ => In name (getSamplers p [])
       | UpdateFloat2 name _ _ =>
           exists ty, In (mkUniform name 2 ty) (ubo (getUniforms p))
       | UpdateFloat name _ =>
           exists ty, In (mkUniform name 1 ty) (ubo (getUniforms p))
       end).
Proof.
  unfold bindForSubMesh. split; intros ->.
  - reflexivity.
  - eexists. split; [reflexivity|]. split; [reflexivity|].
    intros c [<-|[<-|[<-|[]]]].
    + left. reflexivity.
    + exists "vec2". left. reflexivity.
    + exists "float". right. left. reflexivity.
Qed.

Lemma bindForSubMesh_matches_declarations_witness :
  bindForSubMesh (mkPlugin (Some 5) 1 false true 640 480) [UpdateFloat "x" 0]
    = [UpdateFloat "x" 0] /\
  exists added,
    bindForSubMesh (mkPlugin (Some 5) 1 true true 640 480) [UpdateFloat "x" 0]
      = [UpdateFloat "x" 0] ++ added /\
    List.length added = 3.
Proof.
  split.
  - apply (proj1 (bindForSubMesh_matches_declarations nat
             (mkPlugin (Some 5) 1 false true 640 480) [UpdateFloat "x" 0])).
    reflexivity.
  - destruct (proj2 (bindForSubMesh_matches_declarations nat
             (mkPlugin (Some 5) 1 true true 640 480) [UpdateFloat "x" 0])
             eq_refl) as [added [E [A _]]].
    exists added. split; [exact E|]. rewrite A. reflexivity.
Defined.

(** X12: [getCustomCode] answers null exactly for the shader type "vertex".
    For any other shader type it answers a dictionary with two entries, in
    both shader languages: the definitions, and one injection point that
    depends only on the material, before the final colour composition for a
    PBR material and before the fragment colour otherwise. *)
Theorem getCustomCode_injection_points
    (number : Type) (p : IBLShadowsPluginMaterial number)
    (shaderType : string) (shaderLanguage : ShaderLanguage) :
  (getCustomCode p shaderType shaderLanguage = None <-> shaderType = "vertex") /\
  (shaderType <> "vertex" ->
   exists frag,
     getCustomCode p shaderType shaderLanguage = Some frag /\
     map fst frag =
       ["CUSTOM_FRAGMENT_DEFINITIONS";
        if material_isPBR p then "CUSTOM_FRAGMENT_BEFORE_FINALCOLORCOMPOSITION"
        else "CUSTOM_FRAGMENT_BEFORE_FRAGCOLOR"]).
Proof.
  unfold getCustomCode. split.
  - destruct (String.eqb_spec shaderType "vertex") as [E|N]; split; intros H.
    + exact E.
    + reflexivity.
    + discriminate H.
    + contradiction.
  - intros N. apply String.eqb_neq in N. rewrite N.
    eexists. split; [reflexivity|].
    destruct shaderLanguage, (material_isPBR p); reflexivity.
Qed.

Lemma getCustomCode_injection_points_witness :
  exists frag,
    getCustomCode (mkPlugin None 1 true false 640 480) "fragment" WGSL = Some frag /\
    map fst frag =
      ["CUSTOM_FRAGMENT_DEFINITIONS"; "CUSTOM_FRAGMENT_BEFORE_FRAGCOLOR"].
Proof.
  apply (proj2 (getCustomCode_injection_points nat
           (mkPlugin None 1 true false 640 480) "fragment" WGSL)).
  discriminate.
Defined.

(** X13: every piece of shader code the plugin hands out, in both shader
    languages and for both kinds of material, and the uniform declarations
    of [getUniforms] as well, is guarded: blanks apart it opens with
    [#ifdef RENDER_WITH_IBL_SHADOWS], closes with [#endif], and has as many
    [#endif] as [#ifdef].  The code is therefore inert unless the define
    that [prepareDefines] sets from the enabled flag is on. *)
Theorem injected_code_guarded
    (number : Type) (p : IBLShadowsPluginMaterial number) :
  guarded (fragment (getUniforms p)) = true /\
  (forall defines,
      RENDER_WITH_IBL_SHADOWS (prepareDefines p defines) = _isEnabled p) /\
  (forall shaderType shaderLanguage frag key code,
      getCustomCode p shaderType shaderLanguage = Some frag ->
      In (key, code) frag ->
      guarded code = true).
Proof.
  split; [vm_compute; reflexivity|]. split; [reflexivity|].
  intros shaderType shaderLanguage frag key code E Hin.
  unfold getCustomCode in E.
  destruct (String.eqb shaderType "vertex"); [discriminate E|].
  inversion E; subst; clear E.
  destruct shaderLanguage, (material_isPBR p); simpl in Hin;
    destruct Hin as [H|[H|[]]]; inversion H; subst;
    vm_compute; reflexivity.
Qed.

Lemma injected_code_guarded_witness :
  exists frag,
    getCustomCode (mkPlugin None 1 true true 640 480) "fragment" GLSL = Some frag /\
    forall key code, In (key, code) frag -> guarded code = true.
Proof.
  eexists. split; [reflexivity|].
  intros key code.
  apply (proj2 (proj2 (injected_code_guarded nat
           (mkPlugin None 1 true true 640 480)))
           "fragment" GLSL _ key code eq_refl).
Defined.

(** X14: the declarations agree with the code.  Every uniform of the ubo
    list of [getUniforms] is declared, with its type and name, in the
    fragment text of [getUniforms], and the definitions handed out by
    [getCustomCode] in either shader language use every declared uniform
    and the sampler that [getSamplers] adds. *)
Theorem declared_uniforms_used
    (number : Type) (p : IBLShadowsPluginMaterial number) (u : UniformDecl) :
  In u (ubo (getUniforms p)) ->
  contains
    (String.append "uniform "
       (String.append (uniform_type u)
          (String.append " " (String.append (uniform_name u) ";"))))
    (fragment (getUniforms p)) = true /\
  forall shaderType shaderLanguage frag,
    getCustomCode p shaderType shaderLanguage = Some frag ->
    exists code,
      In ("CUSTOM_FRAGMENT_DEFINITIONS", code) frag /\
      contains (uniform_name u) code = true /\
      forall sampler, In sampler (getSamplers p []) ->
                      contains sampler code = true.
Proof.
  intros Hu. split.
  - destruct Hu as [<-|[<-|[]]]; vm_compute; reflexivity.
  - intros shaderType shaderLanguage frag E.
    unfold getCustomCode in E.
    destruct (String.eqb shaderType "vertex"); [discriminate E|].
    inversion E; subst; clear E.
    destruct shaderLanguage, (material_isPBR p); simpl;
      eexists; (split; [left; reflexivity|]);
      (split; [destruct Hu as [<-|[<-|[]]]; vm_compute; reflexivity|]);
      intros sampler [<-|[]]; vm_compute; reflexivity.
Qed.

Lemma declared_uniforms_used_witness :
  contains "uniform float shadowOpacity;"
    (fragment (getUniforms (mkPlugin None 1 true true 640 480))) = true.
Proof.
  apply (proj1 (declared_uniforms_used nat (mkPlugin None 1 true true 640 480)
                  (mkUniform "shadowOpacity" 1 "float")
                  (or_intror (or_introl eq_refl)))).
Defined.

End IBLShadowsFacts.
